(** * Mys_Goods_Tool: the exchange-mode scheduling code

    A shallow embedding of [src/mys_goods_tool/exchange_mode.py].

    Python objects become records, [Optional] becomes [option], the value a
    job returns (a float, [None], [False] or a (status, result) tuple)
    becomes the tagged union [PyVal].  Effects on the outside world (the
    logger, [ping3.ping], [asyncio.sleep], the remote exchange call, widget
    updates) are recorded as a trace of [Effect]s, and a call either returns
    a value or raises: the [Run] monad below is a writer over traces with an
    exception layer.  Answers of the outside world are read from a [World]
    record.  Floats are idealised as rationals. *)

From Stdlib Require Import ZArith NArith QArith Qround Lqa Lia.
From Stdlib Require Import String List Bool.
Import ListNotations.

Set Implicit Arguments.
Open Scope string_scope.
Open Scope list_scope.

(** ** Data model

    The classes are declared in [user_data.py] and [data_model.py], which
    are not among the sources; each record has the attributes that
    [exchange_mode.py] reads in the functions embedded here. *)

Record UserAccount := { bbs_uid : string }.

(** [time] is the POSIX timestamp at which the good becomes exchangeable. *)
Record Good := {
  goods_name : string;
  general_name : string;
  time_text : string;
  time : Z
}.

Record ExchangePlan := {
  account : UserAccount;
  good : Good
}.

(** The flags read by [_on_fail], in the order it tests them. *)
Record ExchangeStatus := {
  network_error : bool;
  missing_stoken : bool;
  missing_mid : bool;
  missing_address : bool;
  missing_game_uid : bool;
  unsupported_game : bool;
  failed_getting_game_record : bool;
  init_required : bool;
  account_not_found : bool
}.

Record ExchangeResult := { plan : ExchangePlan }.

Record Preference := {
  timezone : option string;
  enable_connection_test : bool;
  connection_test_interval : option Q;
  exchange_latency : Q * Q
}.

(** [conf]: the preference and the configured plans, in order. *)
Record Config := {
  preference : Preference;
  exchange_plans : list ExchangePlan
}.

Definition UserAccount_eq_dec (a b : UserAccount) : {a = b} + {a <> b}.
Proof. decide equality; apply string_dec. Defined.

Definition Good_eq_dec (a b : Good) : {a = b} + {a <> b}.
Proof. decide equality; try apply string_dec; apply Z.eq_dec. Defined.

Definition ExchangePlan_eq_dec (a b : ExchangePlan) : {a = b} + {a <> b}.
Proof. decide equality; [apply Good_eq_dec | apply UserAccount_eq_dec]. Defined.

(** ** Python values and truthiness *)

(** What a job can return, hence what [event.retval] and [ping_value] can
    hold: [None], a [bool], a [float], or the pair that [good_exchange]
    returns. *)
Inductive PyVal :=
| VNone
| VBool (b : bool)
| VFloat (x : Q)
| VTuple (status : ExchangeStatus) (result : option ExchangeResult).

Definition ExchangeStatus_eq_dec (a b : ExchangeStatus) : {a = b} + {a <> b}.
Proof. decide equality; apply bool_dec. Defined.

Definition ExchangeResult_eq_dec (a b : ExchangeResult) : {a = b} + {a <> b}.
Proof. decide equality; apply ExchangePlan_eq_dec. Defined.

(** Python's [==] on these values: a [bool] is the number 0 or 1, [None]
    equals only itself, and pairs are compared field by field. *)
Definition Q_of_bool (b : bool) : Q := if b then 1 else 0.

Definition py_eq (a b : PyVal) : bool :=
  match a, b with
  | VNone, VNone => true
  | VBool x, VBool y => Bool.eqb x y
  | VBool x, VFloat y => Qeq_bool (Q_of_bool x) y
  | VFloat x, VBool y => Qeq_bool x (Q_of_bool y)
  | VFloat x, VFloat y => Qeq_bool x y
  | VTuple s r, VTuple s' r' =>
      (if ExchangeStatus_eq_dec s s' then true else false)
      && match r, r' with
         | None, None => true
         | Some x, Some y => if ExchangeResult_eq_dec x y then true else false
         | _, _ => false
         end
  | _, _ => false
  end.

Definition Q_truthy (x : Q) : bool := negb (Qeq_bool x 0).

Definition str_truthy (s : string) : bool :=
  match s with EmptyString => false | _ => true end.

Definition truthy (v : PyVal) : bool :=
  match v with
  | VNone => false
  | VBool b => b
  | VFloat x => Q_truthy x
  | VTuple _ _ => true
  end.

(** Python's [a or b] on an optional number and on an optional string. *)
Definition Q_or (a : option Q) (b : Q) : Q :=
  match a with
  | Some x => if Q_truthy x then x else b
  | None => b
  end.

Definition str_or (a : option string) (b : string) : string :=
  match a with
  | Some s => if str_truthy s then s else b
  | None => b
  end.

(** [round(x, 2)] on a float: the nearest multiple of 1/100, ties to the
    even one. *)
Definition round_half_even (y : Q) : Z :=
  let f := Qfloor y in
  match Qcompare (y - inject_Z f) (1 # 2) with
  | Lt => f
  | Gt => (f + 1)%Z
  | Eq => if Z.even f then f else (f + 1)%Z
  end.

Definition round2 (x : Q) : Q := round_half_even (x * 100) # 100.

(** ** Effects, exceptions and the [Run] monad *)

Inductive PyExc :=
| TypeError (what : string)
| AttributeError (what : string)
| KeyboardInterrupt
| OSError (what : string)
| TransportError (what : string).

Inductive Level := DEBUG | INFO | WARNING | ERROR.

(** One constructor per message template of the file; the arguments are the
    values interpolated into the f-string. *)
Inductive LogMsg :=
| MsgExchangeFailedBecause (uid name reason : string)      (* line 59 *)
| MsgHostUnresolved                                       (* line 76 *)
| MsgPingTimeout (hostname : string)                      (* line 80 *)
| MsgPingFailed (hostname : string)                       (* line 82 *)
| MsgPingDelay (hostname : string) (rounded_ms : Q)       (* line 84 *)
| MsgTimerFired (name time_text : string)                 (* line 115 *)
| MsgRequestSent (name time_text : string)                (* line 120 *)
| MsgNoPlans                                              (* line 130 *)
| MsgExchangeSucceeded (uid name : string)                (* lines 144, 332 *)
| MsgExchangeFailed (uid name : string)                   (* lines 147, 336 *)
| MsgSchedulerStarted                                     (* line 151 *)
| MsgSchedulerStopped.                                    (* line 155 *)

(** The three texts a result row shows (lines 298, 333, 337). *)
Inductive ResultStatic := StaticWaiting | StaticSucceeded | StaticFailed.

Inductive Effect :=
| LoggerAddStdout
| Log (level : Level) (msg : LogMsg)
| Ping (hostname : string)
| Sleep (seconds : Q)
| GoodExchange (p : ExchangePlan)
| SchedulerStart
| SchedulerShutdown
| RunForever
| HideResultPreview
| Mount (static : ResultStatic).

(** A call returns a value, raises, or (for [run_forever]) never returns. *)
Inductive Outcome (A : Type) :=
| Returned (a : A)
| Raised (e : PyExc)
| Forever.
Arguments Raised {A} e.
Arguments Forever {A}.

Definition Run (A : Type) : Type := list Effect * Outcome A.

Definition ret {A} (a : A) : Run A := ([], Returned a).

Definition raise {A} (e : PyExc) : Run A := ([], Raised e).

Definition emit (e : Effect) : Run unit := ([e], Returned tt).

Definition bind {A B} (m : Run A) (k : A -> Run B) : Run B :=
  match snd m with
  | Returned a => (fst m ++ fst (k a), snd (k a))
  | Raised e => (fst m, Raised e)
  | Forever => (fst m, Forever)
  end.

Declare Scope run_scope.
Delimit Scope run_scope with run.
Notation "x <- m ;; k" := (bind m (fun x => k))
  (at level 61, m at next level, right associativity) : run_scope.
Notation "m ;; k" := (bind m (fun _ => k))
  (at level 61, right associativity) : run_scope.
Open Scope run_scope.

Definition trace {A} (r : Run A) : list Effect := fst r.
Definition outcome {A} (r : Run A) : Outcome A := snd r.

Definition raises {A} (r : Run A) : Prop := exists e, outcome r = Raised e.
Definition returns {A} (r : Run A) (a : A) : Prop := outcome r = Returned a.

(** The effects that are calls of [good_exchange]. *)
Definition is_GoodExchange (e : Effect) : bool :=
  match e with GoodExchange _ => true | _ => false end.

(** ** The outside world *)

(** What [ping3.ping(hostname, unit="ms")] answers when it returns: [None]
    when no reply came in time, [False] on an error it reports itself, the
    delay in milliseconds otherwise. *)
Inductive PingAnswer :=
| PingNone
| PingFalse
| PingDelay (ms : Q).

Definition PyVal_of_ping (r : PingAnswer) : PyVal :=
  match r with
  | PingNone => VNone
  | PingFalse => VBool false
  | PingDelay ms => VFloat ms
  end.

(** Modelled from the spec: [good_exchange] of [mys_goods_tool.api], which
    is not among the sources.  The spec gives it as
    [attemptExchange(plan) -> (ExchangeStatus, ExchangeResult)], a network
    call that the core treats as fallible: a call either returns a status
    with an optional result, or fails. *)
Definition GoodExchangeCall : Type :=
  ExchangePlan -> Outcome (ExchangeStatus * option ExchangeResult).

(** The answers of the calls that leave the process.  [ping3_ping] returns
    an answer or raises (the library raises, for one, when the process may
    not open a socket); [random_random] is the unit draw behind
    [random.uniform]; [keyboard_interrupt] tells whether the user ever
    interrupts [run_forever]. *)
Record World := {
  ping3_ping : string -> Outcome PingAnswer;
  random_random : Q;
  good_exchange : GoodExchangeCall;
  keyboard_interrupt : bool
}.

(** [random.uniform(a, b)] is [a + (b - a) * random()], here in exact
    arithmetic.  On floats the sum is rounded and can reach [b]: of the
    bounds proved below, the ones that are not strict are those that carry
    over. *)
Definition random_uniform (w : World) (a b : Q) : Q :=
  a + (b - a) * random_random w.

Definition ping (w : World) (hostname : string) : Run PingAnswer :=
  ([Ping hostname], ping3_ping w hostname).

Definition call_good_exchange (w : World) (p : ExchangePlan)
  : Run (ExchangeStatus * option ExchangeResult) :=
  ([GoodExchange p], good_exchange w p).

(** Attribute access [result.plan] on an [Optional[ExchangeResult]]. *)
Definition attr_plan (r : option ExchangeResult) : Run ExchangePlan :=
  match r with
  | Some x => ret (plan x)
  | None => raise (AttributeError "'NoneType' object has no attribute 'plan'")
  end.

(** Truthiness of an [Optional[ExchangeResult]]: a result object is true. *)
Definition result_truthy (r : option ExchangeResult) : bool :=
  match r with Some _ => true | None => false end.

(** [exchange_status, exchange_result = result]. *)
Definition unpack2 (v : PyVal) : Run (ExchangeStatus * option ExchangeResult) :=
  match v with
  | VTuple st r => ret (st, r)
  | _ => raise (TypeError "cannot unpack non-iterable object")
  end.

(** ** Lines 37-59: [_on_fail] *)

Definition fail_reason (status : ExchangeStatus) : string :=
  if network_error status then "网络错误"
  else if missing_stoken status then "商品为游戏内物品，但 Cookies 缺少 stoken"
  else if missing_mid status then
    "商品为游戏内物品，但 stoken 为 'v2' 类型同时 Cookies 缺少 mid"
  else if missing_address status then "商品为实体物品，但未配置收货地址"
  else if missing_game_uid status then "商品为游戏内物品，但未配置对应游戏的账号UID"
  else if unsupported_game status then "暂不支持兑换对应分区/游戏的商品"
  else if failed_getting_game_record status then "获取用户 GameRecord 失败"
  else if init_required status then "未进行兑换任务初始化"
  else if account_not_found status then "账号不存在"
  else "未知错误".

(** The flags in the order [_on_fail] tests them, each with its text. *)
Definition failure_flags : list ((ExchangeStatus -> bool) * string) :=
  [ (network_error, "网络错误");
    (missing_stoken, "商品为游戏内物品，但 Cookies 缺少 stoken");
    (missing_mid, "商品为游戏内物品，但 stoken 为 'v2' 类型同时 Cookies 缺少 mid");
    (missing_address, "商品为实体物品，但未配置收货地址");
    (missing_game_uid, "商品为游戏内物品，但未配置对应游戏的账号UID");
    (unsupported_game, "暂不支持兑换对应分区/游戏的商品");
    (failed_getting_game_record, "获取用户 GameRecord 失败");
    (init_required, "未进行兑换任务初始化");
    (account_not_found, "账号不存在") ].

Definition _on_fail (status : ExchangeStatus) (result : option ExchangeResult)
  : Run unit :=
  let error := fail_reason status in
  p <- attr_plan result ;;
  emit (Log ERROR (MsgExchangeFailedBecause
                     (bbs_uid (account p)) (general_name (good p)) error)).

(** ** Lines 109-121: [exchange_begin] *)

Definition exchange_begin (w : World) (conf : Config) (p : ExchangePlan)
  : Run (ExchangeStatus * option ExchangeResult) :=
  emit (Log INFO (MsgTimerFired (general_name (good p)) (time_text (good p)))) ;;
  let '(random_x, random_y) := exchange_latency (preference conf) in
  let latency := random_uniform w random_x random_y in
  emit (Sleep latency) ;;
  result <- call_good_exchange w p ;;
  emit (Log INFO (MsgRequestSent (general_name (good p)) (time_text (good p)))) ;;
  ret result.

(** ** Sample inputs *)

Definition sample_plan : ExchangePlan :=
  {| account := {| bbs_uid := "10001" |};
     good := {| goods_name := "card"; general_name := "card (bbs)";
                time_text := "2023-05-01 12:00:00"; time := 1682913600 |} |}.

Definition other_plan : ExchangePlan :=
  {| account := {| bbs_uid := "10002" |};
     good := {| goods_name := "poster"; general_name := "poster (hk4e)";
                time_text := "2023-05-02 12:00:00"; time := 1683000000 |} |}.

Definition sample_preference : Preference :=
  {| timezone := Some "Asia/Shanghai";
     enable_connection_test := true;
     connection_test_interval := Some (30 # 1);
     exchange_latency := (0, 1 # 2) |}.

Definition sample_conf : Config :=
  {| preference := sample_preference; exchange_plans := [sample_plan; other_plan] |}.

(** The same plan configured twice. *)
Definition repeated_conf : Config :=
  {| preference := sample_preference; exchange_plans := [sample_plan; sample_plan] |}.

Definition empty_conf : Config :=
  {| preference := sample_preference; exchange_plans := [] |}.

(** A latency window written the wrong way round. *)
Definition reversed_conf : Config :=
  {| preference :=
       {| timezone := None; enable_connection_test := false;
          connection_test_interval := None; exchange_latency := (1 # 2, 0) |};
     exchange_plans := [sample_plan] |}.

Definition no_status : ExchangeStatus :=
  {| network_error := false; missing_stoken := false; missing_mid := false;
     missing_address := false; missing_game_uid := false; unsupported_game := false;
     failed_getting_game_record := false; init_required := false;
     account_not_found := false |}.

Definition network_error_status : ExchangeStatus :=
  {| network_error := true; missing_stoken := false; missing_mid := false;
     missing_address := false; missing_game_uid := false; unsupported_game := false;
     failed_getting_game_record := false; init_required := false;
     account_not_found := false |}.

(** A world where the host answers in 12.3456 ms and the exchange succeeds. *)
Definition sample_world : World :=
  {| ping3_ping := fun _ => Returned (PingDelay (123456 # 10000));
     random_random := 1 # 4;
     good_exchange := fun p => Returned (no_status, Some {| plan := p |});
     keyboard_interrupt := true |}.

(** A world where the exchange call reports a network error as a status. *)
Definition failing_world : World :=
  {| ping3_ping := fun _ => Returned PingFalse;
     random_random := 1 # 4;
     good_exchange := fun _ => Returned (network_error_status, None);
     keyboard_interrupt := true |}.

(** A world where the exchange call itself fails. *)
Definition faulting_world : World :=
  {| ping3_ping := fun _ => Returned PingNone;
     random_random := 1 # 4;
     good_exchange := fun _ => Raised (TransportError "connection reset");
     keyboard_interrupt := false |}.

(** A world where the process may not open the socket of the probe. *)
Definition unprivileged_world : World :=
  {| ping3_ping := fun _ => Raised (OSError "Operation not permitted");
     random_random := 1 # 4;
     good_exchange := fun p => Returned (no_status, Some {| plan := p |});
     keyboard_interrupt := true |}.

(** The connection test enabled with an interval of zero seconds. *)
Definition zero_interval_conf : Config :=
  {| preference :=
       {| timezone := None; enable_connection_test := true;
          connection_test_interval := Some 0; exchange_latency := (0, 1 # 2) |};
     exchange_plans := [sample_plan] |}.

(** Local time eight hours ahead of UTC. *)
Definition sample_fromtimestamp (t : Z) : Z := (t + 28800)%Z.

(** ** The scheduler *)

Section ExchangeMode.

(** What the module reads from files that are not among the sources:
    the host name that [urlparse(URL_EXCHANGE).hostname] yields, the class
    defaults [Preference.timezone] and
    [Preference.connection_test_interval], and the type of naive local
    datetimes with [datetime.fromtimestamp]. *)
Variable URL_EXCHANGE_hostname : option string.
Variable Preference_timezone : string.
Variable Preference_connection_test_interval : Q.
Variable datetime : Type.
Variable fromtimestamp : Z -> datetime.

(** *** Lines 62-85: [_get_api_host] and [_connection_test] *)

Definition _get_api_host : option string :=
  match URL_EXCHANGE_hostname with
  | Some hostname => if str_truthy hostname then Some hostname else None
  | None => None
  end.

Definition host_unresolved : Run PyVal :=
  emit (Log WARNING MsgHostUnresolved) ;;
  ret (VBool false).

Definition _connection_test (w : World) : Run PyVal :=
  match _get_api_host with
  | None => host_unresolved
  | Some hostname =>
      if negb (str_truthy hostname) then host_unresolved
      else
        result <- ping w hostname ;;
        match result with
        | PingNone => emit (Log INFO (MsgPingTimeout hostname))
        | PingFalse => emit (Log INFO (MsgPingFailed hostname))
        | PingDelay ms => emit (Log INFO (MsgPingDelay hostname (round2 ms)))
        end ;;
        ret (PyVal_of_ping result)
  end.

(** *** The part of APScheduler the module uses

    A job is a function with its arguments and a trigger; the scheduler
    keeps its jobs and its listeners in the order they were added.  A
    listener is called with every event whose code meets its mask. *)

Inductive JobFunc := Func_connection_test | Func_exchange_begin.

Inductive Trigger :=
| interval (seconds : Q)
| date (run_date : datetime).

Record Job := {
  func : JobFunc;
  trigger : Trigger;
  args : list ExchangePlan
}.

Inductive Callback :=
| exchange_mode_simple_on_executed
| ExchangeResultRow_on_executed
| ExchangeModePing_update_ping.

Record Scheduler := {
  scheduler_timezone : option string;
  jobs : list Job;
  listeners : list (Callback * N);
  running : bool;
  shutdown_requested : bool
}.

Definition EVENT_JOB_EXECUTED : N := 4096.
Definition EVENT_JOB_ERROR : N := 8192.

Definition AsyncIOScheduler : Scheduler :=
  {| scheduler_timezone := None; jobs := []; listeners := []; running := false;
     shutdown_requested := false |}.

Definition configure (s : Scheduler) (tz : string) : Scheduler :=
  {| scheduler_timezone := Some tz; jobs := jobs s;
     listeners := listeners s; running := running s;
     shutdown_requested := shutdown_requested s |}.

Definition add_job (s : Scheduler) (j : Job) : Scheduler :=
  {| scheduler_timezone := scheduler_timezone s; jobs := jobs s ++ [j];
     listeners := listeners s; running := running s;
     shutdown_requested := shutdown_requested s |}.

Definition add_listener (s : Scheduler) (cb : Callback) (mask : N) : Scheduler :=
  {| scheduler_timezone := scheduler_timezone s; jobs := jobs s;
     listeners := listeners s ++ [(cb, mask)]; running := running s;
     shutdown_requested := shutdown_requested s |}.

Definition start (s : Scheduler) : Scheduler :=
  {| scheduler_timezone := scheduler_timezone s; jobs := jobs s;
     listeners := listeners s; running := true;
     shutdown_requested := shutdown_requested s |}.

(** [AsyncIOScheduler.shutdown] runs through the event loop: the call only
    hands the shutdown to the loop and leaves the scheduler as it is; the
    scheduler stops when the loop runs that request. *)
Definition shutdown (s : Scheduler) : Scheduler :=
  {| scheduler_timezone := scheduler_timezone s; jobs := jobs s;
     listeners := listeners s; running := running s;
     shutdown_requested := true |}.

(** *** Lines 88-106: [get_scheduler] *)

Definition connection_test_job (seconds : Q) : Job :=
  {| func := Func_connection_test; trigger := interval seconds; args := [] |}.

Definition exchange_job (p : ExchangePlan) : Job :=
  {| func := Func_exchange_begin;
     trigger := date (fromtimestamp (time (good p)));
     args := [p] |}.

Definition get_scheduler (conf : Config) : Scheduler :=
  let scheduler := AsyncIOScheduler in
  let scheduler :=
    configure scheduler (str_or (timezone (preference conf)) Preference_timezone) in
  let scheduler :=
    if enable_connection_test (preference conf) then
      let seconds := Q_or (connection_test_interval (preference conf))
                          Preference_connection_test_interval in
      add_job scheduler (connection_test_job seconds)
    else scheduler in
  fold_left (fun s p => add_job s (exchange_job p)) (exchange_plans conf) scheduler.

(** *** Running a job and delivering its event

    The executor calls [job.func] on the arguments [job.args]; a call that returns yields an
    [EVENT_JOB_EXECUTED] event carrying the returned value, a call that
    raises yields an [EVENT_JOB_ERROR] event. *)

Record JobExecutionEvent := {
  code : N;
  retval : PyVal
}.

Definition call_job (w : World) (conf : Config) (j : Job) : Run PyVal :=
  match func j, args j with
  | Func_connection_test, [] => _connection_test w
  | Func_exchange_begin, [p] =>
      r <- exchange_begin w conf p ;;
      ret (VTuple (fst r) (snd r))
  | _, _ => raise (TypeError "wrong number of positional arguments")
  end.

Definition run_job (w : World) (conf : Config) (j : Job) : option JobExecutionEvent :=
  match outcome (call_job w conf j) with
  | Returned v => Some {| code := EVENT_JOB_EXECUTED; retval := v |}
  | Raised _ => Some {| code := EVENT_JOB_ERROR; retval := VNone |}
  | Forever => None
  end.

Definition listens (event : JobExecutionEvent) (l : Callback * N) : bool :=
  negb (N.land (code event) (snd l) =? 0)%N.

(** The callbacks that are called with [event], in subscription order. *)
Definition receivers (s : Scheduler) (event : JobExecutionEvent) : list Callback :=
  map fst (filter (listens event) (listeners s)).

(** *** Lines 135-147: the listener of [exchange_mode_simple] *)

Definition on_executed (event : JobExecutionEvent) : Run unit :=
  let result := retval event in
  r <- unpack2 result ;;
  let '(exchange_status, exchange_result) := r in
  if result_truthy exchange_result then
    p <- attr_plan exchange_result ;;
    emit (Log INFO (MsgExchangeSucceeded (bbs_uid (account p)) (general_name (good p))))
  else
    p <- attr_plan exchange_result ;;
    emit (Log ERROR (MsgExchangeFailed (bbs_uid (account p)) (general_name (good p)))).

(** *** Lines 124-155: [exchange_mode_simple]

    The value returned is the scheduler the call has built, if any. *)

Definition is_empty {A} (l : list A) : bool :=
  match l with [] => true | _ => false end.

Definition run_forever (w : World) : Run unit :=
  ([RunForever], if keyboard_interrupt w then Raised KeyboardInterrupt else Forever).

(** [try: body except KeyboardInterrupt: handler]. *)
Definition try_except_KeyboardInterrupt {A} (body handler : Run A) : Run A :=
  match snd body with
  | Raised KeyboardInterrupt => (fst body ++ fst handler, snd handler)
  | _ => body
  end.

Definition exchange_mode_simple (w : World) (conf : Config) : Run (option Scheduler) :=
  emit LoggerAddStdout ;;
  if is_empty (exchange_plans conf) then
    emit (Log INFO MsgNoPlans) ;;
    ret None
  else
    let scheduler := get_scheduler conf in
    let scheduler :=
      add_listener scheduler exchange_mode_simple_on_executed EVENT_JOB_EXECUTED in
    try_except_KeyboardInterrupt
      (emit SchedulerStart ;;
       emit (Log INFO MsgSchedulerStarted) ;;
       run_forever w ;;
       ret (Some (start scheduler)))
      (emit SchedulerShutdown ;;
       emit (Log INFO MsgSchedulerStopped) ;;
       ret (Some (shutdown (start scheduler)))).

(** *** Lines 273-339: [ExchangeResultRow] *)

Record ExchangeResultRow := {
  row_plan : ExchangePlan;
  result_preview : ResultStatic
}.

Definition ExchangeResultRow_init (p : ExchangePlan) : ExchangeResultRow :=
  {| row_plan := p; result_preview := StaticWaiting |}.

(** The body of the method [on_executed(self, event)]. *)
Definition ExchangeResultRow_on_executed_body
    (self : ExchangeResultRow) (event : JobExecutionEvent) : Run unit :=
  let result := retval event in
  r <- unpack2 result ;;
  let '(exchange_status, exchange_result) := r in
  static <-
    (if result_truthy exchange_result then
       p <- attr_plan exchange_result ;;
       emit (Log INFO (MsgExchangeSucceeded (bbs_uid (account p)) (general_name (good p)))) ;;
       ret StaticSucceeded
     else
       p <- attr_plan exchange_result ;;
       emit (Log ERROR (MsgExchangeFailed (bbs_uid (account p)) (general_name (good p)))) ;;
       ret StaticFailed) ;;
  emit HideResultPreview ;;
  emit (Mount static).

(** *** Lines 342-363: [ExchangeModePing] *)

Definition DEFAULT_VALUE : PyVal := VBool false.

Record ExchangeModePing := { ping_value : PyVal }.

Definition ExchangeModePing_init : ExchangeModePing :=
  {| ping_value := DEFAULT_VALUE |}.

(** [render]: the host shown and the delay shown, each replaced by the
    text N/A when it is false in Python's sense. *)
Definition render (self : ExchangeModePing) : string * (PyVal + string) :=
  (match _get_api_host with
   | Some h => if str_truthy h then h else "N/A"
   | None => "N/A"
   end,
   if truthy (ping_value self) then inl (ping_value self) else inr "N/A").

(** The body of the method [update_ping(self, event)]. *)
Definition update_ping_body (self : ExchangeModePing) (event : JobExecutionEvent)
  : ExchangeModePing :=
  {| ping_value := retval event |}.

(** *** The listeners as they are registered

    [exchange_mode_simple] registers a closure of one argument.  The two
    widget classes register, from their class bodies, the plain functions
    [on_executed(self, event)] and [update_ping(self, event)] on
    [ExchangeModeView.scheduler]; the scheduler calls a listener with the
    event as its only argument. *)

Definition call_listener (cb : Callback) (event : JobExecutionEvent) : Run unit :=
  match cb with
  | exchange_mode_simple_on_executed => on_executed event
  | ExchangeResultRow_on_executed =>
      raise (TypeError "on_executed() missing 1 required positional argument: 'event'")
  | ExchangeModePing_update_ping =>
      raise (TypeError "update_ping() missing 1 required positional argument: 'event'")
  end.

(** The scheduler of [exchange_mode_simple] and the class attribute
    [ExchangeModeView.scheduler], each with its listeners. *)
Definition simple_scheduler (conf : Config) : Scheduler :=
  add_listener (get_scheduler conf) exchange_mode_simple_on_executed EVENT_JOB_EXECUTED.

Definition ExchangeModeView_scheduler (conf : Config) : Scheduler :=
  add_listener
    (add_listener (get_scheduler conf) ExchangeResultRow_on_executed EVENT_JOB_EXECUTED)
    ExchangeModePing_update_ping EVENT_JOB_EXECUTED.

(** *** Reading the timetable *)

Definition is_recurring (j : Job) : bool :=
  match trigger j with interval _ => true | date _ => false end.

Definition is_one_shot (j : Job) : bool :=
  match trigger j with date _ => true | interval _ => false end.

Definition recurring_jobs (s : Scheduler) : list Job := filter is_recurring (jobs s).

Definition one_shot_jobs (s : Scheduler) : list Job := filter is_one_shot (jobs s).

Definition job_of_plan (p : ExchangePlan) (j : Job) : bool :=
  is_one_shot j && existsb (fun q => if ExchangePlan_eq_dec p q then true else false) (args j).

(** The live one-shot jobs that [p] maps to. *)
Definition jobs_of_plan (s : Scheduler) (p : ExchangePlan) : list Job :=
  filter (job_of_plan p) (jobs s).

(** The recurring part of the timetable of [get_scheduler]. *)
Definition probe_jobs (conf : Config) : list Job :=
  if enable_connection_test (preference conf) then
    [connection_test_job (Q_or (connection_test_interval (preference conf))
                               Preference_connection_test_interval)]
  else [].

(** *** Delivering an event to the listeners

    [_dispatch_event] of the scheduler calls, in subscription order, every
    listener whose mask meets the event's code, and catches what a listener
    raises: each listener has its own outcome. *)

Definition _dispatch_event (s : Scheduler) (event : JobExecutionEvent)
  : list (Callback * Run unit) :=
  map (fun cb => (cb, call_listener cb event)) (receivers s event).

(** What the listeners log and mount for an event. *)
Definition dispatch_trace (s : Scheduler) (event : JobExecutionEvent) : list Effect :=
  flat_map (fun r => trace (snd r)) (_dispatch_event s event).

(** *** Lines 172-186: [ExchangeModeWarning] *)

(** The two class constants [ENTER_TEXT] and [EXIT_TEXT]. *)
Inductive WarningText := ENTER_TEXT | EXIT_TEXT.

Record ExchangeModeWarning := { display_text : WarningText }.

Definition ExchangeModeWarning_init : ExchangeModeWarning :=
  {| display_text := ENTER_TEXT |}.

Definition ExchangeModeWarning_render (self : ExchangeModeWarning) : WarningText :=
  display_text self.

(** *** Lines 191-270: [ExchangeModeView]

    [ControllableButton] is declared in [custom_widget.py], which is not
    among the sources: a button is taken with its id and the two attributes
    that [show]/[hide] and [enable]/[disable] set.  [ListView] is the list
    of its items, with [clear] and [append]. *)

Record ControllableButton := {
  button_id : string;
  display : bool;
  disabled : bool
}.

Definition new_button (i : string) : ControllableButton :=
  {| button_id := i; display := true; disabled := false |}.

Definition show (b : ControllableButton) : ControllableButton :=
  {| button_id := button_id b; display := true; disabled := disabled b |}.

Definition hide (b : ControllableButton) : ControllableButton :=
  {| button_id := button_id b; display := false; disabled := disabled b |}.

Definition enable (b : ControllableButton) : ControllableButton :=
  {| button_id := button_id b; display := display b; disabled := false |}.

Definition disable (b : ControllableButton) : ControllableButton :=
  {| button_id := button_id b; display := display b; disabled := true |}.

(** An item of the list view: the placeholder [empty_data_item] or the row
    of a plan. *)
Inductive ListItem :=
| empty_data_item
| ResultRow (row : ExchangeResultRow).

Definition clear (lv : list ListItem) : list ListItem := [].

Definition append (lv : list ListItem) (item : ListItem) : list ListItem :=
  lv ++ [item].

Inductive Message := EnterExchangeMode | ExitExchangeMode.

Record ExchangeModeView := {
  button_enter : ControllableButton;
  button_exit : ControllableButton;
  button_refresh : ControllableButton;
  warning_text : ExchangeModeWarning;
  list_view : list ListItem
}.

(** The class body: three buttons, the exit button hidden, the warning
    text, and a list view holding the placeholder. *)
Definition ExchangeModeView_init : ExchangeModeView :=
  {| button_enter := new_button "button-exchange_mode-enter";
     button_exit := hide (new_button "button-exchange_mode-exit");
     button_refresh := new_button "button-exchange_mode-refresh";
     warning_text := ExchangeModeWarning_init;
     list_view := [empty_data_item] |}.

Definition update_data (conf : Config) (self : ExchangeModeView) : ExchangeModeView :=
  let lv := clear (list_view self) in
  let lv :=
    fold_left (fun lv p => append lv (ResultRow (ExchangeResultRow_init p)))
              (exchange_plans conf) lv in
  let lv := if is_empty (exchange_plans conf) then append lv empty_data_item else lv in
  {| button_enter := button_enter self; button_exit := button_exit self;
     button_refresh := button_refresh self; warning_text := warning_text self;
     list_view := lv |}.

(** [_on_button_pressed], on the id of the pressed button: the new state of
    the view and the messages it posts. *)
Definition _on_button_pressed (conf : Config) (self : ExchangeModeView) (pressed : string)
  : ExchangeModeView * list Message :=
  if (pressed =? "button-exchange_mode-enter")%string then
    ({| button_enter := hide (button_enter self);
        button_exit := show (button_exit self);
        button_refresh := disable (button_refresh self);
        warning_text := {| display_text := EXIT_TEXT |};
        list_view := list_view self |},
     [EnterExchangeMode])
  else if (pressed =? "button-exchange_mode-exit")%string then
    ({| button_enter := show (button_enter self);
        button_exit := hide (button_exit self);
        button_refresh := enable (button_refresh self);
        warning_text := {| display_text := ENTER_TEXT |};
        list_view := list_view self |},
     [ExitExchangeMode])
  else if (pressed =? "button-exchange_mode-refresh")%string then
    (update_data conf self, [])
  else (self, []).

Definition _on_mount (conf : Config) (self : ExchangeModeView) : ExchangeModeView :=
  update_data conf self.

(** A run of button presses, with the messages posted along it. *)
Fixpoint press_all (conf : Config) (self : ExchangeModeView) (pressed : list string)
  : ExchangeModeView * list Message :=
  match pressed with
  | [] => (self, [])
  | b :: rest =>
      let '(self1, posted1) := _on_button_pressed conf self b in
      let '(self2, posted2) := press_all conf self1 rest in
      (self2, posted1 ++ posted2)
  end.

(** The view is in exchange mode when the exit button is the one shown. *)
Definition in_exchange_mode (self : ExchangeModeView) : bool :=
  display (button_exit self).

(** The buttons, the refresh switch and the warning text agree on the
    mode. *)
Definition view_consistent (self : ExchangeModeView) : Prop :=
  display (button_enter self) = negb (in_exchange_mode self)
  /\ disabled (button_refresh self) = in_exchange_mode self
  /\ display_text (warning_text self)
     = (if in_exchange_mode self then EXIT_TEXT else ENTER_TEXT)
  /\ disabled (button_enter self) = false
  /\ disabled (button_exit self) = false
  /\ display (button_refresh self) = true.

(** The mode a posted message announces. *)
Definition mode_of_message (m : Message) : bool :=
  match m with EnterExchangeMode => true | ExitExchangeMode => false end.

(** ** Properties *)

(** *** The timetable built by [get_scheduler] *)

Lemma jobs_add_exchange_jobs (l : list ExchangePlan) (s : Scheduler) :
  jobs (fold_left (fun s p => add_job s (exchange_job p)) l s)
  = jobs s ++ map exchange_job l.
Proof.
  revert s. induction l as [|p l IH]; intros s; simpl.
  - now rewrite app_nil_r.
  - rewrite IH. simpl. now rewrite <- app_assoc.
Qed.

Lemma listeners_add_exchange_jobs (l : list ExchangePlan) (s : Scheduler) :
  listeners (fold_left (fun s p => add_job s (exchange_job p)) l s) = listeners s.
Proof.
  revert s. induction l as [|p l IH]; intros s; simpl; [reflexivity|].
  now rewrite IH.
Qed.

Lemma jobs_get_scheduler (conf : Config) :
  jobs (get_scheduler conf) = probe_jobs conf ++ map exchange_job (exchange_plans conf).
Proof.
  unfold get_scheduler, probe_jobs. rewrite jobs_add_exchange_jobs.
  now destruct (enable_connection_test (preference conf)).
Qed.

Lemma listeners_get_scheduler (conf : Config) : listeners (get_scheduler conf) = [].
Proof.
  unfold get_scheduler. rewrite listeners_add_exchange_jobs.
  now destruct (enable_connection_test (preference conf)).
Qed.

Lemma one_shot_exchange_jobs (l : list ExchangePlan) :
  filter is_one_shot (map exchange_job l) = map exchange_job l.
Proof. induction l as [|p l IH]; simpl; [reflexivity | now rewrite IH]. Qed.

Lemma recurring_exchange_jobs (l : list ExchangePlan) :
  filter is_recurring (map exchange_job l) = [].
Proof. induction l as [|p l IH]; simpl; [reflexivity | exact IH]. Qed.

Lemma one_shot_probe_jobs (conf : Config) : filter is_one_shot (probe_jobs conf) = [].
Proof. unfold probe_jobs. now destruct (enable_connection_test (preference conf)). Qed.

Lemma recurring_probe_jobs (conf : Config) :
  filter is_recurring (probe_jobs conf) = probe_jobs conf.
Proof. unfold probe_jobs. now destruct (enable_connection_test (preference conf)). Qed.

Lemma plan_probe_jobs (conf : Config) (p : ExchangePlan) :
  filter (job_of_plan p) (probe_jobs conf) = [].
Proof. unfold probe_jobs. now destruct (enable_connection_test (preference conf)). Qed.

Lemma plan_exchange_jobs (l : list ExchangePlan) (p : ExchangePlan) :
  length (filter (job_of_plan p) (map exchange_job l)) = count_occ ExchangePlan_eq_dec l p.
Proof.
  induction l as [|q l IH]; simpl; [reflexivity|].
  unfold job_of_plan at 1. simpl.
  destruct (ExchangePlan_eq_dec p q) as [E|N], (ExchangePlan_eq_dec q p) as [E'|N'];
    simpl; try congruence.
Qed.

(** C1, as amended: [get_scheduler] registers one one-shot job for every
    entry of the plan list, in the order of the list, whose run date is the
    local datetime of the entry's [good.time]; hence a plan maps to as many
    one-shot jobs as it has entries in the list, and to at most one when no
    plan is configured twice. *)
Theorem get_scheduler_one_shot_jobs (conf : Config) :
  one_shot_jobs (get_scheduler conf)
  = map (fun p => {| func := Func_exchange_begin;
                     trigger := date (fromtimestamp (time (good p)));
                     args := [p] |})
        (exchange_plans conf)
  /\ (forall p, length (jobs_of_plan (get_scheduler conf) p)
               = count_occ ExchangePlan_eq_dec (exchange_plans conf) p)
  /\ (NoDup (exchange_plans conf) ->
      forall p, (length (jobs_of_plan (get_scheduler conf) p) <= 1)%nat).
Proof.
  assert (Hcount : forall p, length (jobs_of_plan (get_scheduler conf) p)
                             = count_occ ExchangePlan_eq_dec (exchange_plans conf) p).
  { intros p. unfold jobs_of_plan. rewrite jobs_get_scheduler, filter_app.
    rewrite plan_probe_jobs. simpl. apply plan_exchange_jobs. }
  split; [|split].
  - unfold one_shot_jobs. rewrite jobs_get_scheduler, filter_app.
    rewrite one_shot_probe_jobs, one_shot_exchange_jobs. reflexivity.
  - exact Hcount.
  - intros Hnodup p. rewrite Hcount.
    apply (proj1 (NoDup_count_occ ExchangePlan_eq_dec _) Hnodup).
Qed.

Lemma Q_or_unset (d : Q) : Q_or None d = d.
Proof. reflexivity. Qed.

Lemma Q_or_set (x d : Q) : ~ x == 0 -> Q_or (Some x) d = x.
Proof.
  intros Hx. unfold Q_or, Q_truthy.
  destruct (Qeq_bool x 0) eqn:E; [|reflexivity].
  apply Qeq_bool_iff in E. contradiction.
Qed.

Lemma Q_or_zero (x d : Q) : x == 0 -> Q_or (Some x) d = d.
Proof.
  intros Hx. unfold Q_or, Q_truthy.
  apply Qeq_bool_iff in Hx. now rewrite Hx.
Qed.

(** C6, as amended: the timetable has a recurring job exactly when the
    preference enables the connection test; the recurring jobs are then the
    single [_connection_test] job, whose interval is the configured one
    when one is configured and is not zero, and the default when none is
    configured or the configured one is zero (Python's [or]). *)
Theorem get_scheduler_recurring_jobs (conf : Config) :
  let s := get_scheduler conf in
  let seconds := Q_or (connection_test_interval (preference conf))
                      Preference_connection_test_interval in
  ((exists j, In j (jobs s) /\ is_recurring j = true)
   <-> enable_connection_test (preference conf) = true)
  /\ recurring_jobs s
     = (if enable_connection_test (preference conf)
        then [ {| func := Func_connection_test; trigger := interval seconds; args := [] |} ]
        else [])
  /\ (connection_test_interval (preference conf) = None ->
      seconds = Preference_connection_test_interval)
  /\ (forall x, connection_test_interval (preference conf) = Some x -> ~ x == 0 ->
      seconds = x)
  /\ (forall x, connection_test_interval (preference conf) = Some x -> x == 0 ->
      seconds = Preference_connection_test_interval).
Proof.
  intros s seconds.
  assert (Hrec : recurring_jobs s = probe_jobs conf).
  { unfold recurring_jobs, s. rewrite jobs_get_scheduler, filter_app.
    rewrite recurring_probe_jobs, recurring_exchange_jobs. apply app_nil_r. }
  split; [|split; [|split; [|split]]].
  - split.
    + intros [j [Hin Hj]].
      assert (Hf : In j (recurring_jobs s)) by (apply filter_In; auto).
      rewrite Hrec in Hf. unfold probe_jobs in Hf.
      destruct (enable_connection_test (preference conf)); [reflexivity | destruct Hf].
    + intros Hen. exists (connection_test_job seconds). split; [|reflexivity].
      unfold s. rewrite jobs_get_scheduler. apply in_or_app. left.
      unfold probe_jobs. rewrite Hen. now left.
  - rewrite Hrec. reflexivity.
  - intros Hnone. unfold seconds. rewrite Hnone. apply Q_or_unset.
  - intros x Hsome Hx. unfold seconds. rewrite Hsome. now apply Q_or_set.
  - intros x Hsome Hx. unfold seconds. rewrite Hsome. now apply Q_or_zero.
Qed.

(** *** [exchange_mode_simple] *)

(** C10: with no configured plan, [exchange_mode_simple] adds the log sink,
    logs that there is nothing to do and returns; it builds no scheduler,
    and neither starts one nor runs the event loop. *)
Theorem exchange_mode_simple_no_plans (w : World) (conf : Config) :
  exchange_plans conf = [] ->
  exchange_mode_simple w conf = ([LoggerAddStdout; Log INFO MsgNoPlans], Returned None)
  /\ ~ In SchedulerStart (trace (exchange_mode_simple w conf))
  /\ ~ In RunForever (trace (exchange_mode_simple w conf)).
Proof.
  intros Hempty.
  assert (H : exchange_mode_simple w conf
              = ([LoggerAddStdout; Log INFO MsgNoPlans], Returned None)).
  { unfold exchange_mode_simple. rewrite Hempty. reflexivity. }
  rewrite H. repeat split; simpl; intros [F|[F|[]]]; discriminate.
Qed.

(** With a plan configured the scheduler is built, started, and the event
    loop is entered. *)
Lemma exchange_mode_simple_some_plans (w : World) (conf : Config) :
  exchange_plans conf <> [] ->
  In SchedulerStart (trace (exchange_mode_simple w conf))
  /\ In RunForever (trace (exchange_mode_simple w conf))
  /\ outcome (exchange_mode_simple w conf)
     = if keyboard_interrupt w
       then Returned (Some (shutdown (start (simple_scheduler conf))))
       else Forever.
Proof.
  intros Hplans. unfold exchange_mode_simple, simple_scheduler.
  destruct (exchange_plans conf) as [|p l] eqn:E; [congruence|].
  destruct (keyboard_interrupt w) eqn:K;
    unfold run_forever, try_except_KeyboardInterrupt, bind, trace, outcome;
    simpl; rewrite K; simpl; intuition.
Qed.

(** *** [exchange_begin] *)

Lemma random_uniform_bounds (w : World) (lo hi : Q) :
  lo <= hi -> 0 <= random_random w -> random_random w < 1 ->
  lo <= random_uniform w lo hi /\ random_uniform w lo hi <= hi.
Proof.
  intros Hle H0 H1. unfold random_uniform.
  set (u := random_random w) in *.
  assert (Hd : 0 <= hi - lo) by lra.
  assert (Hm : 0 <= (hi - lo) * u) by (apply Qmult_le_0_compat; assumption).
  assert (Hn : 0 <= (hi - lo) * (1 - u)) by (apply Qmult_le_0_compat; lra).
  split; [lra|].
  assert (Heq : (hi - lo) * (1 - u) == (hi - lo) - (hi - lo) * u) by ring.
  rewrite Heq in Hn. lra.
Qed.

(** Every point of a proper window is the image of one unit draw. *)
Lemma random_uniform_onto (lo hi d : Q) :
  lo <= d -> d < hi ->
  exists u, 0 <= u /\ u < 1 /\ lo + (hi - lo) * u == d.
Proof.
  intros Hlo Hhi.
  assert (Hpos : 0 < hi - lo) by lra.
  exists ((d - lo) / (hi - lo)). split; [|split].
  - apply Qle_shift_div_l; [assumption | lra].
  - apply Qlt_shift_div_r; [assumption | lra].
  - field. lra.
Qed.

(** C4: for a latency window [lo <= hi] the delay is
    [random.uniform(lo, hi)], the affine image [lo + (hi - lo) * u] of the
    unit draw; it lies in the window, every point of the window below [hi]
    is the image of a unit draw, and the attempt sleeps for exactly this
    delay between the first log line and the exchange call. *)
Theorem exchange_begin_latency (w : World) (conf : Config) (p : ExchangePlan) (lo hi : Q) :
  exchange_latency (preference conf) = (lo, hi) ->
  lo <= hi ->
  0 <= random_random w -> random_random w < 1 ->
  let D := random_uniform w lo hi in
  lo <= D /\ D <= hi
  /\ D = lo + (hi - lo) * random_random w
  /\ (forall d, lo <= d -> d < hi -> exists u, 0 <= u /\ u < 1 /\ lo + (hi - lo) * u == d)
  /\ exists rest,
       trace (exchange_begin w conf p)
       = Log INFO (MsgTimerFired (general_name (good p)) (time_text (good p)))
         :: Sleep D :: GoodExchange p :: rest
       /\ ~ In (GoodExchange p) rest
       /\ forall d, ~ In (Sleep d) rest.
Proof.
  intros Hwin Hle H0 H1 D.
  destruct (random_uniform_bounds w Hle H0 H1) as [Hlo Hhi].
  split; [exact Hlo|]. split; [exact Hhi|]. split; [reflexivity|].
  split; [intros d; apply random_uniform_onto|].
  unfold exchange_begin. rewrite Hwin.
  unfold call_good_exchange, bind, trace. simpl.
  destruct (good_exchange w p) as [r|e|]; simpl.
  - eexists. split; [reflexivity|].
    split; [intros [F|[]]; discriminate | intros d [F|[]]; discriminate].
  - exists []. split; [reflexivity|]. split; [intros [] | intros d []].
  - exists []. split; [reflexivity|]. split; [intros [] | intros d []].
Qed.

(** C3, as amended: [exchange_begin] handles no exception and adds no
    failure of its own; its outcome is the outcome of the exchange call, so
    it returns the (status, result) pair that [good_exchange] returns and
    raises exactly what [good_exchange] raises. *)
Theorem exchange_begin_outcome (w : World) (conf : Config) (p : ExchangePlan) :
  outcome (exchange_begin w conf p) = good_exchange w p
  /\ (forall r, returns (exchange_begin w conf p) r <-> good_exchange w p = Returned r)
  /\ (raises (exchange_begin w conf p) <-> exists e, good_exchange w p = Raised e).
Proof.
  assert (H : outcome (exchange_begin w conf p) = good_exchange w p).
  { unfold exchange_begin. destruct (exchange_latency (preference conf)) as [x y].
    unfold call_good_exchange, bind, outcome. simpl.
    destruct (good_exchange w p); reflexivity. }
  split; [exact H|]. unfold returns, raises. rewrite H. split; reflexivity.
Qed.

(** *** [_connection_test] *)

Lemma _get_api_host_truthy (h : string) : _get_api_host = Some h -> str_truthy h = true.
Proof.
  unfold _get_api_host. destruct URL_EXCHANGE_hostname as [h'|]; [|discriminate].
  destruct (str_truthy h') eqn:E; [|discriminate].
  intros H. injection H as <-. exact E.
Qed.

Lemma _connection_test_resolved (w : World) (h : string) :
  _get_api_host = Some h ->
  _connection_test w
  = match ping3_ping w h with
    | Returned a =>
        ([Ping h;
          Log INFO match a with
                   | PingNone => MsgPingTimeout h
                   | PingFalse => MsgPingFailed h
                   | PingDelay ms => MsgPingDelay h (round2 ms)
                   end],
         Returned (PyVal_of_ping a))
    | Raised e => ([Ping h], Raised e)
    | Forever => ([Ping h], Forever)
    end.
Proof.
  intros Hh. unfold _connection_test. rewrite Hh.
  rewrite (_get_api_host_truthy Hh). simpl.
  unfold ping, bind. simpl.
  destruct (ping3_ping w h) as [[| |ms]|e|]; reflexivity.
Qed.

Lemma _connection_test_unresolved (w : World) :
  _get_api_host = None ->
  _connection_test w = ([Log WARNING MsgHostUnresolved], Returned (VBool false)).
Proof. intros Hh. unfold _connection_test. now rewrite Hh. Qed.

Lemma _connection_test_value (w : World) (v : PyVal) :
  outcome (_connection_test w) = Returned v ->
  (v = VBool false /\ _get_api_host = None)
  \/ exists h a, _get_api_host = Some h /\ ping3_ping w h = Returned a
                 /\ v = PyVal_of_ping a.
Proof.
  destruct _get_api_host as [h|] eqn:Hh.
  - rewrite (_connection_test_resolved w Hh).
    destruct (ping3_ping w h) as [a|e|] eqn:Hp; unfold outcome; simpl;
      intros H; try discriminate H.
    injection H as <-. right. exists h, a. auto.
  - rewrite (_connection_test_unresolved w Hh). unfold outcome. simpl.
    intros H. injection H as <-. left. auto.
Qed.

(** C5, as amended: [_connection_test] has no handler of its own.  When no
    host name is obtained it warns and returns [False] without a ping.
    Otherwise it pings once; it raises exactly what [ping3.ping] raises,
    and when [ping3.ping] answers it returns that answer: [None] for no
    reply, [False] for an error, and the measured delay as it is, not
    rounded (only the logged figure is rounded to two decimals).  So every
    value it returns is [None], [False] or a float, and the float is not
    negative when the measured delays are not. *)
Theorem _connection_test_result (w : World) :
  (_get_api_host = None ->
   _connection_test w = ([Log WARNING MsgHostUnresolved], Returned (VBool false)))
  /\ (forall h, _get_api_host = Some h ->
      match ping3_ping w h with
      | Returned PingNone =>
          _connection_test w
          = ([Ping h; Log INFO (MsgPingTimeout h)], Returned VNone)
      | Returned PingFalse =>
          _connection_test w
          = ([Ping h; Log INFO (MsgPingFailed h)], Returned (VBool false))
      | Returned (PingDelay ms) =>
          _connection_test w
          = ([Ping h; Log INFO (MsgPingDelay h (round2 ms))], Returned (VFloat ms))
      | Raised e => _connection_test w = ([Ping h], Raised e)
      | Forever => _connection_test w = ([Ping h], Forever)
      end)
  /\ (forall e, outcome (_connection_test w) = Raised e
                <-> exists h, _get_api_host = Some h /\ ping3_ping w h = Raised e)
  /\ (forall v, returns (_connection_test w) v ->
                v = VNone \/ v = VBool false \/ exists ms, v = VFloat ms)
  /\ ((forall h ms, ping3_ping w h = Returned (PingDelay ms) -> 0 <= ms) ->
      forall ms, returns (_connection_test w) (VFloat ms) -> 0 <= ms).
Proof.
  split; [apply _connection_test_unresolved|].
  split.
  { intros h Hh. rewrite (_connection_test_resolved w Hh).
    destruct (ping3_ping w h) as [[| |ms]|e|]; reflexivity. }
  split.
  { intros e. destruct _get_api_host as [h|] eqn:Hh.
    - rewrite (_connection_test_resolved w Hh). split.
      + intros H. exists h. split; [reflexivity|].
        destruct (ping3_ping w h) as [a|e'|]; unfold outcome in H; simpl in H;
          try discriminate H. now injection H as <-.
      + intros [h' [Hh' Hp]]. injection Hh' as <-. now rewrite Hp.
    - rewrite (_connection_test_unresolved w Hh). split.
      + discriminate.
      + intros [h [F _]]. discriminate. }
  split.
  { intros v Hv. destruct (_connection_test_value w Hv) as [[-> _]|[h [a [_ [_ ->]]]]].
    - auto.
    - destruct a as [| |ms]; simpl; eauto. }
  intros Hpos ms Hv.
  destruct (_connection_test_value w Hv) as [[F _]|[h [a [_ [Hp Ha]]]]];
    [discriminate F|].
  destruct a as [| |ms']; try discriminate Ha.
  injection Ha as ->. exact (Hpos h ms' Hp).
Qed.

(** *** The listeners *)

Lemma on_executed_present_result (c : N) (st : ExchangeStatus) (r : ExchangeResult) :
  on_executed {| code := c; retval := VTuple st (Some r) |}
  = ([Log INFO (MsgExchangeSucceeded (bbs_uid (account (plan r)))
                                     (general_name (good (plan r))))],
     Returned tt).
Proof. reflexivity. Qed.

(** C7: on a completed attempt whose result is absent, [on_executed] (and
    likewise the body of [ExchangeResultRow.on_executed]) evaluates
    [exchange_result.plan] on [None]: it raises [AttributeError] and logs
    nothing, instead of reporting the failure. *)
Theorem on_executed_absent_result (c : N) (st : ExchangeStatus) (self : ExchangeResultRow) :
  on_executed {| code := c; retval := VTuple st None |}
  = ([], Raised (AttributeError "'NoneType' object has no attribute 'plan'"))
  /\ ExchangeResultRow_on_executed_body self {| code := c; retval := VTuple st None |}
     = ([], Raised (AttributeError "'NoneType' object has no attribute 'plan'")).
Proof. split; reflexivity. Qed.

Lemma receivers_simple_scheduler (conf : Config) (v : PyVal) :
  receivers (simple_scheduler conf) {| code := EVENT_JOB_EXECUTED; retval := v |}
  = [exchange_mode_simple_on_executed].
Proof.
  unfold receivers, simple_scheduler. simpl. rewrite listeners_get_scheduler. reflexivity.
Qed.

Lemma receivers_ExchangeModeView_scheduler (conf : Config) (v : PyVal) :
  receivers (ExchangeModeView_scheduler conf) {| code := EVENT_JOB_EXECUTED; retval := v |}
  = [ExchangeResultRow_on_executed; ExchangeModePing_update_ping].
Proof.
  unfold receivers, ExchangeModeView_scheduler. simpl.
  rewrite listeners_get_scheduler. reflexivity.
Qed.

Lemma on_executed_not_a_tuple (c : N) (v : PyVal) :
  (forall st r, v <> VTuple st r) ->
  on_executed {| code := c; retval := v |}
  = ([], Raised (TypeError "cannot unpack non-iterable object")).
Proof.
  intros Hv. destruct v as [|b|x|st r]; try reflexivity.
  exfalso. exact (Hv st r eq_refl).
Qed.

(** *** The ping display *)

(** C9, as amended: before the first probe the held value is [False].  It
    differs from the timeout marker [None] and from every delay that is not
    zero; it is the failure marker [False] itself, and it equals a delay of
    zero, as Python compares them.  The display shows the same text for
    the untested state, a failed probe, a timed-out probe and a delay of
    zero, and shows the delay when it is not zero. *)
Theorem untested_ping_value :
  ping_value ExchangeModePing_init = VBool false
  /\ ping_value ExchangeModePing_init = PyVal_of_ping PingFalse
  /\ py_eq (ping_value ExchangeModePing_init) (PyVal_of_ping PingFalse) = true
  /\ py_eq (ping_value ExchangeModePing_init) (PyVal_of_ping PingNone) = false
  /\ (forall ms, py_eq (ping_value ExchangeModePing_init) (PyVal_of_ping (PingDelay ms))
                 = true <-> ms == 0)
  /\ render ExchangeModePing_init = render {| ping_value := PyVal_of_ping PingFalse |}
  /\ render ExchangeModePing_init = render {| ping_value := PyVal_of_ping PingNone |}
  /\ (forall ms, ms == 0 ->
      render {| ping_value := PyVal_of_ping (PingDelay ms) |}
      = render ExchangeModePing_init)
  /\ (forall ms, ~ ms == 0 ->
      snd (render {| ping_value := PyVal_of_ping (PingDelay ms) |}) = inl (VFloat ms)
      /\ snd (render ExchangeModePing_init) = inr "N/A").
Proof.
  split; [reflexivity|]. split; [reflexivity|]. split; [reflexivity|].
  split; [reflexivity|].
  split.
  { intros ms. simpl. rewrite Qeq_bool_iff. split; intros H; now symmetry. }
  split; [reflexivity|]. split; [reflexivity|].
  split.
  - intros ms Hz. unfold render. simpl. unfold Q_truthy.
    apply Qeq_bool_iff in Hz. now rewrite Hz.
  - intros ms Hnz. unfold render. simpl. unfold Q_truthy.
    destruct (Qeq_bool ms 0) eqn:E; [|split; reflexivity].
    apply Qeq_bool_iff in E. contradiction.
Qed.

(** ** Further properties of the module *)

(** *** [get_scheduler] *)






(** *** [exchange_mode_simple] with plans *)


(** *** [_get_api_host] and the host shown *)

(** X3: [_get_api_host] returns the host name of [URL_EXCHANGE] when
    there is a non-empty one and [None] otherwise, so never an empty name;
    [render] shows that host name when there is one and N/A when there is
    none, whatever the ping value, so the host it shows is never empty. *)
Theorem _get_api_host_nonempty :
  _get_api_host <> Some ""
  /\ (forall h, _get_api_host = Some h <-> URL_EXCHANGE_hostname = Some h /\ h <> "")
  /\ (_get_api_host = None <->
      URL_EXCHANGE_hostname = None \/ URL_EXCHANGE_hostname = Some "")
  /\ (forall self h, URL_EXCHANGE_hostname = Some h -> h <> "" -> fst (render self) = h)
  /\ (forall self, URL_EXCHANGE_hostname = None \/ URL_EXCHANGE_hostname = Some "" ->
                   fst (render self) = "N/A")
  /\ (forall self, fst (render self) <> "").
Proof.
  unfold render, _get_api_host.
  split; [|split; [|split; [|split; [|split]]]].
  - destruct URL_EXCHANGE_hostname as [[|c t]|]; simpl; discriminate.
  - intros h. destruct URL_EXCHANGE_hostname as [[|c t]|]; simpl; split.
    + discriminate.
    + intros [H N]. injection H as H. subst h. now contradiction N.
    + intros H. split; [exact H|]. injection H as H. subst h. discriminate.
    + intros [H N]. exact H.
    + discriminate.
    + intros [H N]. discriminate.
  - destruct URL_EXCHANGE_hostname as [[|c t]|]; simpl; split; auto;
      try discriminate.
    intros [H|H]; discriminate.
  - intros self h Hu Hne. rewrite Hu. destruct h as [|c t]; [congruence|reflexivity].
  - intros self [Hu|Hu]; rewrite Hu; reflexivity.
  - intros self. destruct URL_EXCHANGE_hostname as [[|c t]|]; simpl; discriminate.
Qed.

(** *** [_on_fail] *)

Ltac flag_set :=
  split; [ intros H; discriminate H
         | intros H; decompose [and] H; discriminate ].

(** X4: the reason [_on_fail] gives is the text of the first flag that is
    set, in the order network error, stoken, mid, address, game UID, game,
    game record, init, account, and the unknown-error text when none is
    set; the texts are all different, so the reason tells which flag came
    first.  With a result it logs one error line, for the result's account
    and good, and returns; with no result it raises on [result.plan] and
    logs nothing, whatever the status. *)
Theorem _on_fail_report (status : ExchangeStatus) :
  fail_reason status
  = match find (fun f => fst f status) failure_flags with
    | Some f => snd f
    | None => "未知错误"
    end
  /\ NoDup (map snd failure_flags ++ ["未知错误"])
  /\ (network_error status = true -> fail_reason status = "网络错误")
  /\ (fail_reason status = "未知错误" <->
      network_error status = false /\ missing_stoken status = false
      /\ missing_mid status = false /\ missing_address status = false
      /\ missing_game_uid status = false /\ unsupported_game status = false
      /\ failed_getting_game_record status = false /\ init_required status = false
      /\ account_not_found status = false)
  /\ (forall r,
      _on_fail status (Some r)
      = ([Log ERROR (MsgExchangeFailedBecause (bbs_uid (account (plan r)))
                                              (general_name (good (plan r)))
                                              (fail_reason status))],
         Returned tt))
  /\ _on_fail status None
     = ([], Raised (AttributeError "'NoneType' object has no attribute 'plan'")).
Proof.
  split; [|split; [|split; [|split; [|split]]]].
  - destruct status as [a b c d e f g h i]. unfold fail_reason, failure_flags. simpl.
    destruct a; [reflexivity|]. destruct b; [reflexivity|]. destruct c; [reflexivity|].
    destruct d; [reflexivity|]. destruct e; [reflexivity|]. destruct f; [reflexivity|].
    destruct g; [reflexivity|]. destruct h; [reflexivity|]. destruct i; reflexivity.
  - simpl. repeat constructor; simpl; intuition discriminate.
  - intros H. unfold fail_reason. now rewrite H.
  - destruct status as [a b c d e f g h i]. unfold fail_reason. simpl.
    destruct a; [flag_set|]. destruct b; [flag_set|]. destruct c; [flag_set|].
    destruct d; [flag_set|]. destruct e; [flag_set|]. destruct f; [flag_set|].
    destruct g; [flag_set|]. destruct h; [flag_set|]. destruct i; [flag_set|].
    split; intros; repeat split.
  - reflexivity.
  - reflexivity.
Qed.

(** *** [exchange_begin]: the log and the window *)

Lemma exchange_begin_run (w : World) (conf : Config) (p : ExchangePlan) :
  exchange_begin w conf p
  = ([Log INFO (MsgTimerFired (general_name (good p)) (time_text (good p)));
      Sleep (random_uniform w (fst (exchange_latency (preference conf)))
                              (snd (exchange_latency (preference conf))));
      GoodExchange p]
     ++ match good_exchange w p with
        | Returned _ =>
            [Log INFO (MsgRequestSent (general_name (good p)) (time_text (good p)))]
        | _ => []
        end,
     good_exchange w p).
Proof.
  unfold exchange_begin. destruct (exchange_latency (preference conf)) as [x y].
  unfold call_good_exchange, bind. simpl.
  destruct (good_exchange w p); reflexivity.
Qed.

(** X5: [exchange_begin] always logs that the timer fired and calls
    [good_exchange] once, after one sleep; it logs that the request was
    sent exactly when the call returned, so a failed or hanging call leaves
    no such line. *)
Theorem exchange_begin_request_sent (w : World) (conf : Config) (p : ExchangePlan) :
  let sent := Log INFO (MsgRequestSent (general_name (good p)) (time_text (good p))) in
  let t := trace (exchange_begin w conf p) in
  (In sent t <-> exists r, good_exchange w p = Returned r)
  /\ hd_error t
     = Some (Log INFO (MsgTimerFired (general_name (good p)) (time_text (good p))))
  /\ length (filter is_GoodExchange t) = 1%nat
  /\ (forall q, In (GoodExchange q) t -> q = p)
  /\ (forall r, good_exchange w p = Returned r -> last t LoggerAddStdout = sent).
Proof.
  intros sent t. unfold t, trace. rewrite exchange_begin_run. simpl.
  split; [|split; [|split; [|split]]].
  - split.
    + intros [F|[F|[F|H]]]; try discriminate.
      destruct (good_exchange w p) as [r|e|]; [eauto | destruct H | destruct H].
    + intros [r Hr]. rewrite Hr. right. right. right. now left.
  - reflexivity.
  - destruct (good_exchange w p) as [r|e|]; reflexivity.
  - intros q [F|[F|[F|H]]]; try discriminate.
    + now injection F as <-.
    + destruct (good_exchange w p) as [r|e|]; simpl in H;
        [destruct H as [F|[]]; discriminate | destruct H | destruct H].
  - intros r Hr. rewrite Hr. reflexivity.
Qed.

(** X6: the window is not validated.  Whatever its bounds, the delay lies
    between them, the bounds included: between [lo] and [hi] for a proper
    window, equal to the bound for a window of one point, and between [hi]
    and [lo] for a reversed window; and it is negative only if a bound
    is. *)
Theorem random_uniform_any_window (w : World) (conf : Config) (p : ExchangePlan) (lo hi : Q) :
  exchange_latency (preference conf) = (lo, hi) ->
  0 <= random_random w -> random_random w <= 1 ->
  let D := random_uniform w lo hi in
  In (Sleep D) (trace (exchange_begin w conf p))
  /\ (lo <= hi -> lo <= D /\ D <= hi)
  /\ (lo == hi -> D == lo)
  /\ (hi <= lo -> hi <= D /\ D <= lo)
  /\ (0 <= lo -> 0 <= hi -> 0 <= D).
Proof.
  intros Hwin H0 H1 D.
  split.
  { unfold trace. rewrite exchange_begin_run, Hwin. simpl. right. now left. }
  unfold D, random_uniform. set (u := random_random w) in *.
  assert (Hu : 0 <= 1 - u) by lra.
  assert (E1 : lo + (hi - lo) * u == hi - (hi - lo) * (1 - u)) by ring.
  assert (E2 : lo + (hi - lo) * u == lo * (1 - u) + hi * u) by ring.
  split; [|split; [|split]].
  - intros Hle.
    assert (A : 0 <= (hi - lo) * u) by (apply Qmult_le_0_compat; lra).
    assert (B : 0 <= (hi - lo) * (1 - u)) by (apply Qmult_le_0_compat; lra).
    split; lra.
  - intros Heq. rewrite Heq. ring.
  - intros Hge.
    assert (A : 0 <= (lo - hi) * u) by (apply Qmult_le_0_compat; lra).
    assert (B : 0 <= (lo - hi) * (1 - u)) by (apply Qmult_le_0_compat; lra).
    assert (A' : (lo - hi) * u == - ((hi - lo) * u)) by ring.
    assert (B' : (lo - hi) * (1 - u) == - ((hi - lo) * (1 - u))) by ring.
    split; lra.
  - intros Hlo Hhi.
    assert (A : 0 <= lo * (1 - u)) by (apply Qmult_le_0_compat; lra).
    assert (B : 0 <= hi * u) by (apply Qmult_le_0_compat; lra).
    lra.
Qed.

(** *** [_connection_test]: the logged figure and the display *)

Lemma round_half_even_close (y : Q) :
  - (1 # 2) <= y - inject_Z (round_half_even y)
  /\ y - inject_Z (round_half_even y) <= 1 # 2.
Proof.
  unfold round_half_even.
  pose proof (Qfloor_le y) as Hlo. pose proof (Qlt_floor y) as Hhi.
  rewrite inject_Z_plus in Hhi.
  assert (H1 : inject_Z 1 == 1) by reflexivity.
  destruct (Qcompare_spec (y - inject_Z (Qfloor y)) (1 # 2)) as [E|L|G].
  - destruct (Z.even (Qfloor y)); [|rewrite inject_Z_plus]; lra.
  - lra.
  - rewrite inject_Z_plus. lra.
Qed.

Lemma round_half_even_nonneg (y : Q) : 0 <= y -> (0 <= round_half_even y)%Z.
Proof.
  intros Hy. unfold round_half_even.
  assert (H0 : (0 <= Qfloor y)%Z).
  { change 0%Z with (Qfloor 0). now apply Qfloor_resp_le. }
  destruct (Qcompare _ _); [destruct (Z.even _)| |]; lia.
Qed.

Lemma Qmake_hundredths (n : Z) : n # 100 == inject_Z n * (1 # 100).
Proof. unfold Qeq. simpl. lia. Qed.

Lemma round2_close (x : Q) :
  - (1 # 200) <= round2 x - x /\ round2 x - x <= 1 # 200.
Proof.
  unfold round2. rewrite Qmake_hundredths.
  destruct (round_half_even_close (x * 100)) as [A B].
  set (q := inject_Z (round_half_even (x * 100))) in *.
  split; lra.
Qed.

Lemma round2_nonneg (x : Q) : 0 <= x -> 0 <= round2 x.
Proof.
  intros Hx. unfold round2.
  assert (H : (0 <= round_half_even (x * 100))%Z).
  { apply round_half_even_nonneg. apply Qmult_le_0_compat; [exact Hx | discriminate]. }
  unfold Qle. simpl. lia.
Qed.

(** X7: when the host answers, the figure in the log line is a whole
    number of hundredths within 0.005 ms of the delay that is returned, and
    it is not negative when the delay is not. *)
Theorem _connection_test_logged_delay (w : World) (h : string) (ms : Q) :
  _get_api_host = Some h ->
  ping3_ping w h = Returned (PingDelay ms) ->
  exists r,
    _connection_test w = ([Ping h; Log INFO (MsgPingDelay h r)], Returned (VFloat ms))
    /\ - (1 # 200) <= r - ms /\ r - ms <= 1 # 200
    /\ (exists n : Z, r = n # 100)
    /\ (0 <= ms -> 0 <= r).
Proof.
  intros Hh Hping. exists (round2 ms).
  rewrite (_connection_test_resolved w Hh), Hping.
  destruct (round2_close ms) as [A B].
  repeat split; try assumption.
  - eexists. reflexivity.
  - apply round2_nonneg.
Qed.

(** X8: of the values a probe returns, [render] shows only a delay that is
    not zero; for no reply, a failed probe, a missing host name and a delay
    of zero it shows N/A. *)
Theorem render_after_probe (w : World) (v : PyVal) :
  outcome (_connection_test w) = Returned v ->
  (v = VNone \/ v = VBool false \/ exists ms, v = VFloat ms)
  /\ (snd (render {| ping_value := v |}) = inl v
      <-> exists ms, v = VFloat ms /\ ~ ms == 0)
  /\ (snd (render {| ping_value := v |}) = inr "N/A"
      <-> v = VNone \/ v = VBool false \/ exists ms, v = VFloat ms /\ ms == 0).
Proof.
  intros Hv.
  assert (Hcases : v = VNone \/ v = VBool false \/ exists ms, v = VFloat ms).
  { destruct (_connection_test_value w Hv) as [[-> _]|[h [a [_ [_ ->]]]]]; [auto|].
    destruct a as [| |ms]; simpl; eauto. }
  split; [exact Hcases|]. unfold render. simpl.
  destruct Hcases as [->|[->|[ms ->]]]; simpl.
  - split; split; auto; try discriminate. intros [ms [F _]]. discriminate.
  - split; split; auto; try discriminate. intros [ms [F _]]. discriminate.
  - unfold Q_truthy. destruct (Qeq_bool ms 0) eqn:E; simpl.
    + apply Qeq_bool_iff in E. split; split; try discriminate; auto.
      * intros [ms' [F N]]. injection F as <-. contradiction.
      * intros _. right. right. eauto.
    + apply Qeq_bool_neq in E. split; split; try discriminate; eauto.
      intros [F|[F|[ms' [F Z]]]]; try discriminate.
      injection F as <-. contradiction.
Qed.

(** *** From a job to the listeners *)

Lemma call_job_exchange (w : World) (conf : Config) (p : ExchangePlan) :
  outcome (call_job w conf (exchange_job p))
  = match good_exchange w p with
    | Returned r => Returned (VTuple (fst r) (snd r))
    | Raised e => Raised e
    | Forever => Forever
    end.
Proof.
  unfold call_job, exchange_job. simpl. rewrite exchange_begin_run.
  unfold bind, outcome. simpl. destruct (good_exchange w p); reflexivity.
Qed.

Lemma listeners_simple_scheduler (conf : Config) :
  listeners (simple_scheduler conf)
  = [(exchange_mode_simple_on_executed, EVENT_JOB_EXECUTED)].
Proof. unfold simple_scheduler. simpl. now rewrite listeners_get_scheduler. Qed.

Lemma listeners_ExchangeModeView_scheduler (conf : Config) :
  listeners (ExchangeModeView_scheduler conf)
  = [(ExchangeResultRow_on_executed, EVENT_JOB_EXECUTED);
     (ExchangeModePing_update_ping, EVENT_JOB_EXECUTED)].
Proof. unfold ExchangeModeView_scheduler. simpl. now rewrite listeners_get_scheduler. Qed.

(** X9: an attempt whose exchange call raises is reported to nobody: its
    job ends in an [EVENT_JOB_ERROR] event, and neither the listener of the
    text mode nor those of the widgets are subscribed to it. *)
Theorem job_error_not_delivered (w : World) (conf : Config) (p : ExchangePlan) (e : PyExc) :
  good_exchange w p = Raised e ->
  run_job w conf (exchange_job p) = Some {| code := EVENT_JOB_ERROR; retval := VNone |}
  /\ (forall v, _dispatch_event (simple_scheduler conf)
                  {| code := EVENT_JOB_ERROR; retval := v |} = [])
  /\ (forall v, _dispatch_event (ExchangeModeView_scheduler conf)
                  {| code := EVENT_JOB_ERROR; retval := v |} = []).
Proof.
  intros He. split; [|split].
  - unfold run_job. now rewrite call_job_exchange, He.
  - intros v. unfold _dispatch_event, receivers.
    now rewrite listeners_simple_scheduler.
  - intros v. unfold _dispatch_event, receivers.
    now rewrite listeners_ExchangeModeView_scheduler.
Qed.

(** X10: in the text mode, an attempt whose exchange call returns is
    delivered to [on_executed] alone, which looks at the result only: with
    a result it logs a success for the result's account and good, whatever
    the status says, and with no result it raises and logs nothing. *)
Theorem attempt_report_simple
    (w : World) (conf : Config) (p : ExchangePlan)
    (st : ExchangeStatus) (res : option ExchangeResult) :
  good_exchange w p = Returned (st, res) ->
  run_job w conf (exchange_job p)
  = Some {| code := EVENT_JOB_EXECUTED; retval := VTuple st res |}
  /\ _dispatch_event (simple_scheduler conf)
       {| code := EVENT_JOB_EXECUTED; retval := VTuple st res |}
     = [(exchange_mode_simple_on_executed,
         match res with
         | Some r =>
             ([Log INFO (MsgExchangeSucceeded (bbs_uid (account (plan r)))
                                              (general_name (good (plan r))))],
              Returned tt)
         | None =>
             ([], Raised (AttributeError "'NoneType' object has no attribute 'plan'"))
         end)].
Proof.
  intros Hr. split.
  - unfold run_job. now rewrite call_job_exchange, Hr.
  - unfold _dispatch_event. rewrite receivers_simple_scheduler. simpl.
    destruct res; reflexivity.
Qed.

(** X11: in the text mode, a run of the probe job that returns (no host
    name, or [ping3.ping] answered) ends in an executed event whose value
    is no pair, and [on_executed], which receives it, fails to unpack it
    and logs nothing; a run in which [ping3.ping] raises ends in an error
    event, which [on_executed] does not receive. *)
Theorem probe_event_breaks_on_executed (w : World) (conf : Config) (seconds : Q) :
  (forall v, outcome (_connection_test w) = Returned v ->
     run_job w conf (connection_test_job seconds)
     = Some {| code := EVENT_JOB_EXECUTED; retval := v |}
     /\ (forall st r, v <> VTuple st r)
     /\ _dispatch_event (simple_scheduler conf)
          {| code := EVENT_JOB_EXECUTED; retval := v |}
        = [(exchange_mode_simple_on_executed,
            ([], Raised (TypeError "cannot unpack non-iterable object")))])
  /\ (forall e, outcome (_connection_test w) = Raised e ->
     run_job w conf (connection_test_job seconds)
     = Some {| code := EVENT_JOB_ERROR; retval := VNone |}
     /\ _dispatch_event (simple_scheduler conf)
          {| code := EVENT_JOB_ERROR; retval := VNone |} = [])
  /\ (_get_api_host = None ->
      outcome (_connection_test w) = Returned (VBool false))
  /\ (forall h, _get_api_host = Some h ->
      outcome (_connection_test w)
      = match ping3_ping w h with
        | Returned a => Returned (PyVal_of_ping a)
        | Raised e => Raised e
        | Forever => Forever
        end).
Proof.
  split; [|split; [|split]].
  - intros v Hv.
    assert (Hnt : forall st r, v <> VTuple st r).
    { intros st r.
      destruct (_connection_test_value w Hv) as [[-> _]|[h [a [_ [_ ->]]]]];
        [discriminate|]. destruct a; discriminate. }
    split; [|split].
    + unfold run_job, call_job. simpl. now rewrite Hv.
    + exact Hnt.
    + unfold _dispatch_event. rewrite receivers_simple_scheduler. simpl.
      now rewrite (on_executed_not_a_tuple EVENT_JOB_EXECUTED Hnt).
  - intros e He. split.
    + unfold run_job, call_job. simpl. now rewrite He.
    + unfold _dispatch_event, receivers. now rewrite listeners_simple_scheduler.
  - intros Hh. now rewrite (_connection_test_unresolved w Hh).
  - intros h Hh. rewrite (_connection_test_resolved w Hh).
    destruct (ping3_ping w h); reflexivity.
Qed.

(** X12: on [ExchangeModeView.scheduler] an executed event is delivered to
    the two functions registered from the class bodies, and for every event
    each call fails for its missing argument before the body runs: the
    listeners log nothing, mount nothing, and the ping value they would set
    is never set. *)
Theorem view_listeners_never_run (conf : Config) (event : JobExecutionEvent) :
  (forall v, map fst (_dispatch_event (ExchangeModeView_scheduler conf)
                        {| code := EVENT_JOB_EXECUTED; retval := v |})
             = [ExchangeResultRow_on_executed; ExchangeModePing_update_ping])
  /\ Forall (fun cr => exists msg, snd cr = ([], Raised (TypeError msg)))
            (_dispatch_event (ExchangeModeView_scheduler conf) event)
  /\ dispatch_trace (ExchangeModeView_scheduler conf) event = [].
Proof.
  split; [|split].
  - intros v. unfold _dispatch_event.
    rewrite receivers_ExchangeModeView_scheduler. reflexivity.
  - unfold _dispatch_event, receivers.
    rewrite listeners_ExchangeModeView_scheduler. simpl.
    destruct (listens event _); simpl; repeat constructor; eexists; reflexivity.
  - unfold dispatch_trace, _dispatch_event, receivers.
    rewrite listeners_ExchangeModeView_scheduler. simpl.
    destruct (listens event _); reflexivity.
Qed.

(** *** [ExchangeModeView]: the plan list and the buttons *)

Lemma append_rows (l : list ExchangePlan) (lv : list ListItem) :
  fold_left (fun lv p => append lv (ResultRow (ExchangeResultRow_init p))) l lv
  = lv ++ map (fun p => ResultRow (ExchangeResultRow_init p)) l.
Proof.
  revert lv. induction l as [|p l IH]; intros lv; simpl.
  - now rewrite app_nil_r.
  - rewrite IH. unfold append. now rewrite <- app_assoc.
Qed.

Lemma list_view_update_data (conf : Config) (self : ExchangeModeView) :
  list_view (update_data conf self)
  = if is_empty (exchange_plans conf) then [empty_data_item]
    else map (fun p => ResultRow (ExchangeResultRow_init p)) (exchange_plans conf).
Proof.
  unfold update_data, clear. simpl. rewrite append_rows. simpl.
  destruct (exchange_plans conf); reflexivity.
Qed.

(** X13: [update_data] rebuilds the list from the configured plans alone,
    whatever it held before: one waiting row per plan, in order, and the
    placeholder exactly when there is no plan.  The list is therefore never
    empty, refreshing twice is refreshing once, and the buttons and the
    warning text are left alone. *)
Theorem update_data_list (conf : Config) (self : ExchangeModeView) :
  list_view (update_data conf self)
  = (if is_empty (exchange_plans conf) then [empty_data_item]
     else map (fun p => ResultRow {| row_plan := p; result_preview := StaticWaiting |})
              (exchange_plans conf))
  /\ length (list_view (update_data conf self))
     = Nat.max 1 (length (exchange_plans conf))
  /\ (In empty_data_item (list_view (update_data conf self))
      <-> exchange_plans conf = [])
  /\ (forall other, list_view (update_data conf other)
                    = list_view (update_data conf self))
  /\ update_data conf (update_data conf self) = update_data conf self
  /\ button_enter (update_data conf self) = button_enter self
  /\ button_exit (update_data conf self) = button_exit self
  /\ button_refresh (update_data conf self) = button_refresh self
  /\ warning_text (update_data conf self) = warning_text self.
Proof.
  split; [apply list_view_update_data|].
  split.
  { rewrite list_view_update_data.
    destruct (exchange_plans conf) as [|p l]; simpl; [reflexivity|].
    now rewrite length_map. }
  split.
  { rewrite list_view_update_data.
    destruct (exchange_plans conf) as [|p l]; simpl.
    - split; auto.
    - split; [|discriminate].
      intros [F|H]; [discriminate|].
      apply in_map_iff in H. destruct H as [q [F _]]. discriminate. }
  split.
  { intros other. now rewrite !list_view_update_data. }
  split.
  { unfold update_data, clear. reflexivity. }
  repeat split.
Qed.

Lemma last_default {A} (l : list A) (d d' : A) : l <> [] -> last l d = last l d'.
Proof.
  induction l as [|a l IH]; intros Hne; [congruence|].
  destruct l as [|b l]; [reflexivity|].
  change (last (b :: l) d = last (b :: l) d'). apply IH. discriminate.
Qed.

Lemma last_app_default {A} (l1 l2 : list A) (d : A) :
  last (l1 ++ l2) d = last l2 (last l1 d).
Proof.
  induction l1 as [|a l1 IH]; [reflexivity|].
  destruct l1 as [|b l1].
  - simpl. destruct l2 as [|c l2]; [reflexivity|].
    apply last_default. discriminate.
  - change (last ((b :: l1) ++ l2) d = last l2 (last (b :: l1) d)). exact IH.
Qed.

Lemma _on_button_pressed_step (conf : Config) (self : ExchangeModeView) (b : string) :
  view_consistent self -> list_view self <> [] ->
  view_consistent (fst (_on_button_pressed conf self b))
  /\ list_view (fst (_on_button_pressed conf self b)) <> []
  /\ in_exchange_mode (fst (_on_button_pressed conf self b))
     = last (map mode_of_message (snd (_on_button_pressed conf self b)))
            (in_exchange_mode self).
Proof.
  intros Hc Hne. unfold _on_button_pressed.
  destruct (b =? "button-exchange_mode-enter")%string.
  { simpl. unfold view_consistent, in_exchange_mode in *. simpl. intuition. }
  destruct (b =? "button-exchange_mode-exit")%string.
  { simpl. unfold view_consistent, in_exchange_mode in *. simpl. intuition. }
  destruct (b =? "button-exchange_mode-refresh")%string.
  { cbn [fst snd]. split; [exact Hc|]. split; [|reflexivity].
    rewrite list_view_update_data.
    destruct (exchange_plans conf); simpl; discriminate. }
  simpl. auto.
Qed.

Lemma press_all_invariant (conf : Config) (pressed : list string) :
  forall self,
    view_consistent self -> list_view self <> [] ->
    view_consistent (fst (press_all conf self pressed))
    /\ list_view (fst (press_all conf self pressed)) <> []
    /\ in_exchange_mode (fst (press_all conf self pressed))
       = last (map mode_of_message (snd (press_all conf self pressed)))
              (in_exchange_mode self).
Proof.
  induction pressed as [|b rest IH]; intros self Hc Hne; simpl.
  - auto.
  - destruct (_on_button_pressed_step conf b Hc Hne) as [Hc1 [Hne1 Hm1]].
    destruct (_on_button_pressed conf self b) as [self1 posted1]. simpl in *.
    destruct (IH self1 Hc1 Hne1) as [Hc2 [Hne2 Hm2]].
    destruct (press_all conf self1 rest) as [self2 posted2]. simpl in *.
    split; [exact Hc2|]. split; [exact Hne2|].
    rewrite map_app, last_app_default, <- Hm1. exact Hm2.
Qed.

(** X14: whatever buttons are pressed, in whatever order, starting from
    the view as the class body builds it: exactly one of the enter and exit
    buttons is shown, the refresh button is disabled exactly in exchange
    mode, the warning text is the one of the mode, the list is not empty,
    and the view is in exchange mode exactly when the last message it
    posted is [EnterExchangeMode]. *)
Theorem press_all_consistent (conf : Config) (pressed : list string) :
  let self := fst (press_all conf ExchangeModeView_init pressed) in
  let posted := snd (press_all conf ExchangeModeView_init pressed) in
  display (button_enter self) = negb (display (button_exit self))
  /\ disabled (button_refresh self) = display (button_exit self)
  /\ ExchangeModeWarning_render (warning_text self)
     = (if display (button_exit self) then EXIT_TEXT else ENTER_TEXT)
  /\ list_view self <> []
  /\ in_exchange_mode self = last (map mode_of_message posted) false.
Proof.
  intros self posted.
  assert (Hinit : view_consistent ExchangeModeView_init) by (repeat split).
  assert (Hne : list_view ExchangeModeView_init <> []) by discriminate.
  destruct (press_all_invariant conf pressed Hinit Hne) as [Hc [Hl Hm]].
  destruct Hc as [H1 [H2 [H3 _]]].
  repeat split; assumption.
Qed.

(** X15: entering exchange mode and leaving it again restores the view as
    it was, when it was consistent and not in exchange mode, and posts the
    two messages in this order; pressing enter a second time changes
    nothing more, and a button with another id changes and posts
    nothing. *)
Theorem enter_then_exit (conf : Config) (self : ExchangeModeView) :
  view_consistent self -> in_exchange_mode self = false ->
  press_all conf self ["button-exchange_mode-enter"; "button-exchange_mode-exit"]
  = (self, [EnterExchangeMode; ExitExchangeMode])
  /\ fst (press_all conf self ["button-exchange_mode-enter"; "button-exchange_mode-enter"])
     = fst (press_all conf self ["button-exchange_mode-enter"])
  /\ (forall b, b <> "button-exchange_mode-enter" -> b <> "button-exchange_mode-exit" ->
                b <> "button-exchange_mode-refresh" ->
                _on_button_pressed conf self b = (self, [])).
Proof.
  intros Hc Hmode. split; [|split].
  - destruct self as [[ie de xe] [ix dx xx] [ir dr xr] [t] lv].
    unfold view_consistent, in_exchange_mode in *. simpl in *.
    destruct Hc as [H1 [H2 [H3 [H4 [H5 H6]]]]]. subst. reflexivity.
  - reflexivity.
  - intros b N1 N2 N3. unfold _on_button_pressed.
    apply String.eqb_neq in N1, N2, N3. now rewrite N1, N2, N3.
Qed.

(** *** The jobs of [get_scheduler], when they run *)



End ExchangeMode.

Arguments interval {datetime} seconds.
Arguments connection_test_job {datetime} seconds.
Arguments AsyncIOScheduler {datetime}.

(** ** The properties at the sample inputs *)

(** C1, the claim as stated fails: with the same plan configured twice the
    timetable holds two live one-shot jobs for it. *)
Lemma get_scheduler_repeated_plan :
  length (jobs_of_plan
            (get_scheduler "Asia/Shanghai" (30 # 1) sample_fromtimestamp repeated_conf)
            sample_plan) = 2%nat
  /\ ~ (length (jobs_of_plan
                  (get_scheduler "Asia/Shanghai" (30 # 1) sample_fromtimestamp repeated_conf)
                  sample_plan) <= 1)%nat.
Proof.
  assert (H : length (jobs_of_plan
            (get_scheduler "Asia/Shanghai" (30 # 1) sample_fromtimestamp repeated_conf)
            sample_plan) = 2%nat) by (vm_compute; reflexivity).
  split; [exact H | rewrite H; lia].
Qed.

(** The sample configuration has no repeated plan: each plan has one job. *)
Lemma get_scheduler_one_shot_jobs_witness :
  NoDup (exchange_plans sample_conf)
  /\ forall p,
      (length (jobs_of_plan
                 (get_scheduler "Asia/Shanghai" (30 # 1) sample_fromtimestamp sample_conf) p)
       <= 1)%nat.
Proof.
  assert (Hnodup : NoDup (exchange_plans sample_conf)).
  { simpl. repeat constructor; simpl; [|tauto].
    intros [F|[]]. discriminate. }
  split; [exact Hnodup|].
  exact (proj2 (proj2 (get_scheduler_one_shot_jobs "Asia/Shanghai" (30 # 1)
                         sample_fromtimestamp sample_conf)) Hnodup).
Defined.

(** C6, the claim as stated fails: with the connection test enabled and an
    interval of zero configured, the probe job runs at the default interval
    of 60 s, not at the configured one. *)
Lemma get_scheduler_zero_interval :
  enable_connection_test (preference zero_interval_conf) = true
  /\ connection_test_interval (preference zero_interval_conf) = Some 0
  /\ recurring_jobs (get_scheduler "Asia/Shanghai" (60 # 1) sample_fromtimestamp
                       zero_interval_conf)
     = [ {| func := Func_connection_test; trigger := interval (60 # 1); args := [] |} ]
  /\ ~ (60 # 1 == 0).
Proof.
  split; [reflexivity|]. split; [reflexivity|]. split; [reflexivity|].
  vm_compute. discriminate.
Qed.

(** The configured interval of 30 s wins over a default of 60 s. *)
Lemma get_scheduler_recurring_jobs_witness :
  recurring_jobs (get_scheduler "Asia/Shanghai" (60 # 1) sample_fromtimestamp sample_conf)
  = [ {| func := Func_connection_test; trigger := interval (30 # 1); args := [] |} ].
Proof.
  exact (proj1 (proj2 (get_scheduler_recurring_jobs "Asia/Shanghai" (60 # 1)
                         sample_fromtimestamp sample_conf))).
Defined.

(** The text mode on the empty configuration. *)
Lemma exchange_mode_simple_no_plans_witness :
  exchange_mode_simple "Asia/Shanghai" (30 # 1) sample_fromtimestamp sample_world empty_conf
  = ([LoggerAddStdout; Log INFO MsgNoPlans], Returned None).
Proof.
  exact (proj1 (exchange_mode_simple_no_plans "Asia/Shanghai" (30 # 1)
                  sample_fromtimestamp sample_world empty_conf eq_refl)).
Defined.

(** The window [0, 1/2] with the unit draw 1/4. *)
Lemma exchange_begin_latency_witness :
  0 <= random_uniform sample_world 0 (1 # 2)
  /\ random_uniform sample_world 0 (1 # 2) <= 1 # 2
  /\ In (Sleep (random_uniform sample_world 0 (1 # 2)))
        (trace (exchange_begin sample_world sample_conf sample_plan)).
Proof.
  assert (Hle : 0 <= 1 # 2) by (vm_compute; discriminate).
  assert (H0 : 0 <= random_random sample_world) by (vm_compute; discriminate).
  assert (H1 : random_random sample_world < 1) by reflexivity.
  destruct (exchange_begin_latency sample_world sample_conf sample_plan
              eq_refl Hle H0 H1) as [Hlo [Hhi [_ [_ [rest [Htrace _]]]]]].
  split; [exact Hlo|]. split; [exact Hhi|].
  rewrite Htrace. right. left. reflexivity.
Defined.

(** C3, the claim as stated fails: with a window [0 <= 1/2], an exchange
    call that fails makes [exchange_begin] raise. *)
Lemma exchange_begin_raises :
  fst (exchange_latency (preference sample_conf))
    <= snd (exchange_latency (preference sample_conf))
  /\ outcome (exchange_begin faulting_world sample_conf sample_plan)
     = Raised (TransportError "connection reset")
  /\ raises (exchange_begin faulting_world sample_conf sample_plan).
Proof.
  split; [vm_compute; discriminate|].
  split; [reflexivity | eexists; reflexivity].
Qed.

(** C5, the claim as stated fails: a delay of 12.3456 ms is returned as it
    is, while its rounding to two decimals is 12.35; and when [ping3.ping]
    raises, so does [_connection_test]. *)
Lemma _connection_test_unrounded :
  outcome (_connection_test (Some "exchange.example") sample_world)
  = Returned (VFloat (123456 # 10000))
  /\ round2 (123456 # 10000) = 1235 # 100
  /\ ~ (123456 # 10000 == round2 (123456 # 10000))
  /\ _connection_test (Some "exchange.example") unprivileged_world
     = ([Ping "exchange.example"], Raised (OSError "Operation not permitted"))
  /\ raises (_connection_test (Some "exchange.example") unprivileged_world).
Proof.
  split; [reflexivity|]. split; [reflexivity|].
  split; [vm_compute; discriminate|].
  split; [reflexivity | eexists; reflexivity].
Qed.

(** A probe of a resolved host that answers in 12.3456 ms: the delay is
    returned as measured, and is not negative. *)
Lemma _connection_test_result_witness :
  _connection_test (Some "exchange.example") sample_world
  = ([Ping "exchange.example";
      Log INFO (MsgPingDelay "exchange.example" (round2 (123456 # 10000)))],
     Returned (VFloat (123456 # 10000)))
  /\ 0 <= 123456 # 10000.
Proof.
  pose proof (_connection_test_result (Some "exchange.example") sample_world)
    as [_ [Hrun [_ [_ Hpos]]]].
  split.
  - exact (Hrun "exchange.example" eq_refl).
  - apply Hpos; [|reflexivity].
    intros h ms H. injection H as <-. discriminate.
Defined.

(** C9, the claim as stated fails: the value held before the first probe is
    the value a failed probe returns. *)
Lemma untested_is_failure_marker :
  ping_value ExchangeModePing_init = PyVal_of_ping PingFalse
  /\ outcome (_connection_test None sample_world)
     = Returned (ping_value ExchangeModePing_init).
Proof. split; reflexivity. Qed.

(** C8: in the text mode with the connection test enabled, the event of
    the probe job is delivered to [on_executed], which fails to unpack the
    float; on [ExchangeModeView.scheduler] the event of an exchange job is
    delivered to [update_ping], whose body would store the (status,
    result) pair as the ping value. *)
Theorem listeners_receive_every_job :
  let s := get_scheduler "Asia/Shanghai" (30 # 1) sample_fromtimestamp sample_conf in
  let probe_event := {| code := EVENT_JOB_EXECUTED; retval := VFloat (123456 # 10000) |} in
  let attempt_event :=
    {| code := EVENT_JOB_EXECUTED;
       retval := VTuple no_status (Some {| plan := sample_plan |}) |} in
  nth_error (jobs s) 0 = Some (connection_test_job (30 # 1))
  /\ run_job (Some "exchange.example") sample_world sample_conf
       (@connection_test_job Z (30 # 1))
     = Some probe_event
  /\ receivers
       (simple_scheduler "Asia/Shanghai" (30 # 1) sample_fromtimestamp sample_conf)
       probe_event
     = [exchange_mode_simple_on_executed]
  /\ call_listener exchange_mode_simple_on_executed probe_event
     = ([], Raised (TypeError "cannot unpack non-iterable object"))
  /\ nth_error (jobs s) 1 = Some (exchange_job sample_fromtimestamp sample_plan)
  /\ run_job (Some "exchange.example") sample_world sample_conf
       (exchange_job sample_fromtimestamp sample_plan)
     = Some attempt_event
  /\ receivers
       (ExchangeModeView_scheduler "Asia/Shanghai" (30 # 1) sample_fromtimestamp sample_conf)
       attempt_event
     = [ExchangeResultRow_on_executed; ExchangeModePing_update_ping]
  /\ ping_value (update_ping_body ExchangeModePing_init attempt_event)
     = VTuple no_status (Some {| plan := sample_plan |}).
Proof.
  cbv zeta. repeat split; vm_compute; reflexivity.
Qed.


(** The window (1/2, 0) with the unit draw 1/4: the delay is in [0, 1/2]. *)
Lemma random_uniform_any_window_witness :
  In (Sleep (random_uniform sample_world (1 # 2) 0))
     (trace (exchange_begin sample_world reversed_conf sample_plan))
  /\ 0 <= random_uniform sample_world (1 # 2) 0
  /\ random_uniform sample_world (1 # 2) 0 <= 1 # 2.
Proof.
  assert (H0 : 0 <= random_random sample_world) by (vm_compute; discriminate).
  assert (H1 : random_random sample_world <= 1) by (vm_compute; discriminate).
  destruct (random_uniform_any_window sample_world reversed_conf sample_plan
              eq_refl H0 H1) as [Hin [_ [_ [Hrev _]]]].
  split; [exact Hin|]. apply Hrev. vm_compute. discriminate.
Defined.

(** A host that answers in 12.3456 ms: the log line shows a figure within
    0.005 of it. *)
Lemma _connection_test_logged_delay_witness :
  exists r,
    _connection_test (Some "exchange.example") sample_world
    = ([Ping "exchange.example"; Log INFO (MsgPingDelay "exchange.example" r)],
       Returned (VFloat (123456 # 10000)))
    /\ - (1 # 200) <= r - (123456 # 10000) /\ r - (123456 # 10000) <= 1 # 200.
Proof.
  destruct (@_connection_test_logged_delay (Some "exchange.example") sample_world
              "exchange.example" (123456 # 10000) eq_refl eq_refl)
    as [r [Hrun [Hlo [Hhi _]]]].
  exists r. split; [exact Hrun|]. split; assumption.
Defined.

(** An exchange call that raises: the job ends in an error event. *)
Lemma job_error_not_delivered_witness :
  run_job (Some "exchange.example") faulting_world sample_conf
    (exchange_job sample_fromtimestamp sample_plan)
  = Some {| code := EVENT_JOB_ERROR; retval := VNone |}.
Proof.
  exact (proj1 (@job_error_not_delivered (Some "exchange.example") "Asia/Shanghai"
                  (30 # 1) Z sample_fromtimestamp faulting_world sample_conf
                  sample_plan (TransportError "connection reset") eq_refl)).
Defined.

(** An exchange call that reports a network error and no result: the
    listener of the text mode raises. *)
Lemma attempt_report_simple_witness :
  _dispatch_event
    (simple_scheduler "Asia/Shanghai" (30 # 1) sample_fromtimestamp sample_conf)
    {| code := EVENT_JOB_EXECUTED; retval := VTuple network_error_status None |}
  = [(exchange_mode_simple_on_executed,
      ([], Raised (AttributeError "'NoneType' object has no attribute 'plan'")))].
Proof.
  exact (proj2 (@attempt_report_simple (Some "exchange.example") "Asia/Shanghai"
                  (30 # 1) Z sample_fromtimestamp failing_world sample_conf
                  sample_plan network_error_status None eq_refl)).
Defined.

(** Entering and leaving exchange mode from the view of the class body. *)
Lemma enter_then_exit_witness :
  press_all sample_conf ExchangeModeView_init
    ["button-exchange_mode-enter"; "button-exchange_mode-exit"]
  = (ExchangeModeView_init, [EnterExchangeMode; ExitExchangeMode]).
Proof.
  refine (proj1 (@enter_then_exit sample_conf ExchangeModeView_init _ eq_refl)).
  repeat split.
Defined.


(** What the display shows after a probe that measured 12.3456 ms. *)
Lemma render_after_probe_witness :
  snd (render (Some "exchange.example") {| ping_value := VFloat (123456 # 10000) |})
  = inl (VFloat (123456 # 10000)).
Proof.
  destruct (@render_after_probe (Some "exchange.example") sample_world
              (VFloat (123456 # 10000)) eq_refl) as [_ [Hshown _]].
  apply Hshown. exists (123456 # 10000). split; [reflexivity|].
  vm_compute. discriminate.
Defined.
